(** * HTTP status checker: classification, resolver and bounded history

    A shallow embedding of the [useStatusHistory] hook, of the
    [HttpStatusChecker] component (its [statusCodeMap] table, the
    functions [handleInputChange], [checkStatusCode] and [urlRequest],
    and the guards of its render) and of the [StatusHistoryChart]
    component, followed by the properties of the specification that
    concern them and by further properties read off the code.

    Conventions of the embedding.
    - A JavaScript string is a [string]: a sequence of code units below
      256 (the Latin-1 part of UTF-16).
    - A JavaScript number that the component handles is an integer and is
      a [Z].  [parseInt] is taken to return the integer that the digits
      denote, which is what it returns up to 2^53; beyond that the engine
      rounds to a double, which changes neither the branch taken by the
      classification nor the number of history entries.
    - [null] is [None].
    - React state is a record threaded through a small state-and-exception
      monad; a setter overwrites its field.  The values that the closure
      of [checkStatusCode] reads ([inputValue], [statusCategory]) are
      those of the render in which the handler was created, that is, of
      the state at the time of the click.
    - The URL parser, the network and the clock are a [World]. *)

From Stdlib Require Import ZArith List String Ascii Bool Lia.
From Stdlib Require Import DecimalString DecimalNat.
Import ListNotations.
Local Open Scope Z_scope.

(* ------------------------------------------------------------------ *)
(** ** Strings: the built-ins the component calls *)

Module JsString.

Definition unit_of (c : ascii) : Z := Z.of_nat (nat_of_ascii c).

(** White space and line terminators removed by [String.prototype.trim]:
    TAB, LF, VT, FF, CR, SP and NBSP. *)
Definition isWhiteSpace (c : ascii) : bool :=
  let n := unit_of c in
  ((9 <=? n) && (n <=? 13)) || (n =? 32) || (n =? 160).

Fixpoint trimStart (s : string) : string :=
  match s with
  | EmptyString => EmptyString
  | String c r => if isWhiteSpace c then trimStart r else s
  end.

Fixpoint trimEnd (s : string) : string :=
  match s with
  | EmptyString => EmptyString
  | String c r =>
      match trimEnd r with
      | EmptyString => if isWhiteSpace c then EmptyString else String c EmptyString
      | r' => String c r'
      end
  end.

Definition trim (s : string) : string := trimEnd (trimStart s).

(** [toLowerCase] on one code unit: A-Z, and the Latin-1 capitals
    U+00C0..U+00DE except the multiplication sign U+00D7. *)
Definition lowerUnit (c : ascii) : ascii :=
  let n := unit_of c in
  if ((65 <=? n) && (n <=? 90))
     || ((192 <=? n) && (n <=? 222) && negb (n =? 215))
  then ascii_of_nat (nat_of_ascii c + 32)
  else c.

Fixpoint toLowerCase (s : string) : string :=
  match s with
  | EmptyString => EmptyString
  | String c r => String (lowerUnit c) (toLowerCase r)
  end.

(** The class [\d]. *)
Definition isDigit (c : ascii) : bool :=
  let n := unit_of c in (48 <=? n) && (n <=? 57).

Fixpoint allDigits (s : string) : bool :=
  match s with
  | EmptyString => true
  | String c r => isDigit c && allDigits r
  end.

(** [/^\d+$/.test(s)]: one digit at least, and nothing else; without
    the [m] flag [$] is the end of the input. *)
Definition testDigits (s : string) : bool :=
  match s with
  | EmptyString => false
  | String _ _ => allDigits s
  end.

(** [parseInt(s, 10)] on a run of decimal digits, most significant
    first; reading stops at the first code unit that is not a digit. *)
Fixpoint parseDigits (acc : Z) (s : string) : Z :=
  match s with
  | EmptyString => acc
  | String c r =>
      if isDigit c then parseDigits (10 * acc + (unit_of c - 48)) r else acc
  end.

Definition parseInt10 (s : string) : Z := parseDigits 0 s.

(** A string is falsy exactly when it is empty. *)
Definition truthy (s : string) : bool :=
  match s with EmptyString => false | String _ _ => true end.

Fixpoint allWhite (s : string) : bool :=
  match s with
  | EmptyString => true
  | String c r => isWhiteSpace c && allWhite r
  end.

End JsString.

(* ------------------------------------------------------------------ *)
(** ** Values and types of the component *)

Inductive TrafficLightStatus := green | orange | red | off.

Inductive StatusCodeCategory :=
  cat1xx | cat2xx | cat3xx | cat4xx | cat5xx | invalid.

(** What a property read on [statusCodeMap] can evaluate to, when it is
    not [undefined]: a number of the table, or an object inherited from
    [Object.prototype] (named by its key). *)
Inductive JsValue :=
| JNumber (n : Z)
| JObject (key : string).

(** [v >= k] and [v < k] against a number literal: an object converts to
    NaN, and every comparison with NaN is false. *)
Definition js_ge (v : JsValue) (k : Z) : bool :=
  match v with JNumber n => k <=? n | JObject _ => false end.

Definition js_lt (v : JsValue) (k : Z) : bool :=
  match v with JNumber n => n <? k | JObject _ => false end.

(** Truthiness, for [x || null]: 0 is falsy, objects are truthy. *)
Definition js_truthy (v : JsValue) : bool :=
  match v with JNumber n => negb (n =? 0) | JObject _ => true end.

Record StatusEntry := mkEntry {
  code : JsValue;
  category : StatusCodeCategory;
  timestamp : Z
}.

(* ------------------------------------------------------------------ *)
(** ** The hook [useStatusHistory] *)

Module History.

(** [Array.prototype.slice(start)] with the end left out: a negative
    [start] counts from the end, and both cases clamp to the array. *)
Definition slice {A} (start : Z) (l : list A) : list A :=
  let len := Z.of_nat (List.length l) in
  let k := if start <? 0 then Z.max (len + start) 0 else Z.min start len in
  skipn (Z.to_nat k) l.

(** [setHistory(prev => [...prev, status].slice(-10))]. *)
Definition addStatus (status : StatusEntry) (prev : list StatusEntry)
  : list StatusEntry :=
  slice (-10) (prev ++ [status]).

(** The history after the calls [addStatus e1; ...; addStatus en],
    from the initial [useState([])]. *)
Definition run (entries : list StatusEntry) : list StatusEntry :=
  fold_left (fun h e => addStatus e h) entries [].

(** The last [n] elements of a list. *)
Definition lastn {A} (n : nat) (l : list A) : list A :=
  skipn (List.length l - n) l.

End History.

(* ------------------------------------------------------------------ *)
(** ** The table [statusCodeMap] *)

Local Open Scope string_scope.

Definition statusCodeMap : list (string * Z) :=
  [ ("continue", 100); ("switching protocols", 101); ("processing", 102);
    ("early hints", 103);
    ("ok", 200); ("created", 201); ("accepted", 202);
    ("non-authoritative information", 203); ("no content", 204);
    ("reset content", 205); ("partial content", 206);
    ("multiple choices", 300); ("moved permanently", 301); ("found", 302);
    ("see other", 303); ("not modified", 304); ("temporary redirect", 307);
    ("permanent redirect", 308);
    ("bad request", 400); ("unauthorized", 401); ("payment required", 402);
    ("forbidden", 403); ("not found", 404); ("method not allowed", 405);
    ("not acceptable", 406); ("request timeout", 408); ("conflict", 409);
    ("gone", 410); ("internal error", 500);
    ("internal server error", 500); ("not implemented", 501);
    ("bad gateway", 502); ("service unavailable", 503);
    ("gateway timeout", 504); ("http version not supported", 505) ]%Z.

Fixpoint ownProperty (key : string) (tbl : list (string * Z)) : option Z :=
  match tbl with
  | [] => None
  | (k, v) :: rest => if String.eqb k key then Some v else ownProperty key rest
  end.

(** The properties that an object literal inherits from
    [Object.prototype]. *)
Definition objectPrototypeKeys : list string :=
  [ "constructor"; "__proto__"; "hasOwnProperty"; "isPrototypeOf";
    "propertyIsEnumerable"; "toLocaleString"; "toString"; "valueOf";
    "__defineGetter__"; "__defineSetter__"; "__lookupGetter__";
    "__lookupSetter__" ].

(** [statusCodeMap[key]]: an own property first, then the prototype;
    [None] is [undefined]. *)
Definition getProperty (key : string) : option JsValue :=
  match ownProperty key statusCodeMap with
  | Some n => Some (JNumber n)
  | None =>
      if existsb (String.eqb key) objectPrototypeKeys
      then Some (JObject key) else None
  end.

(** [x || null]. *)
Definition orNull (x : option JsValue) : option JsValue :=
  match x with
  | Some v => if js_truthy v then Some v else None
  | None => None
  end.

(** Lines 132-133 of [checkStatusCode]:
    [statusCodeMap[inputValue.toLowerCase().trim()] || null]. *)
Definition phraseLookup (inputValue : string) : option JsValue :=
  let normalizedInput := JsString.trim (JsString.toLowerCase inputValue) in
  orNull (getProperty normalizedInput).

(* ------------------------------------------------------------------ *)
(** ** The classification of [checkStatusCode] *)

(** The chain of tests on a code that is not [null]. *)
Definition classifyCode (statusCode : JsValue)
  : TrafficLightStatus * StatusCodeCategory :=
  if js_ge statusCode 100 && js_lt statusCode 200 then (green, cat1xx)
  else if js_ge statusCode 200 && js_lt statusCode 300 then (green, cat2xx)
  else if js_ge statusCode 300 && js_lt statusCode 400 then (green, cat3xx)
  else if js_ge statusCode 400 && js_lt statusCode 500 then (red, cat4xx)
  else if js_ge statusCode 500 && js_lt statusCode 600 then (red, cat5xx)
  else (orange, invalid).

(** The whole of [if (statusCode !== null) ... else ...], as the pair of
    values given to [setTrafficLightStatus] and [setStatusCategory]. *)
Definition classify (statusCode : option JsValue)
  : TrafficLightStatus * StatusCodeCategory :=
  match statusCode with
  | Some v => classifyCode v
  | None => (orange, invalid)
  end.

(* ------------------------------------------------------------------ *)
(** ** State, collaborators and effects *)

(** The state of one mounted [HttpStatusChecker], with the state of its
    [useStatusHistory] hook, and the two outputs that are not React
    state: the requests handed to [fetch] and the number of calls to
    [console.error]. *)
Record State := mkState {
  inputValue : string;
  trafficLightStatus : TrafficLightStatus;
  statusCategory : StatusCodeCategory;
  isUrl : bool;
  confirmedInput : string;
  history : list StatusEntry;
  requests : list string;
  errorsLogged : nat
}.

(** The values of the [useState] calls at mount. *)
Definition initialState : State :=
  mkState "" off invalid false "" [] [] 0.

(** The collaborators: [new URL(s)] gives the [href] of the parsed URL or
    throws; [fetch(u, {method: 'HEAD'})] resolves to a response with a
    [status] or rejects; [Date.now()]. *)
Record World := mkWorld {
  parseURL : string -> option string;
  fetchHead : string -> option Z;
  dateNow : Z
}.

Inductive JsError := TypeError | FetchError.

Inductive Completion (A : Type) :=
| Normal (a : A)
| Throw (e : JsError).
Arguments Normal {A} a.
Arguments Throw {A} e.

Definition M (A : Type) : Type := State -> Completion A * State.

Definition ret {A} (a : A) : M A := fun s => (Normal a, s).

Definition bind {A B} (m : M A) (k : A -> M B) : M B :=
  fun s =>
    match m s with
    | (Normal a, s') => k a s'
    | (Throw e, s') => (Throw e, s')
    end.

Definition throw {A} (e : JsError) : M A := fun s => (Throw e, s).

(** [try { body } catch (error) { handler }]: what the body did to the
    state before it threw is kept. *)
Definition tryCatch {A} (body : M A) (handler : JsError -> M A) : M A :=
  fun s =>
    match body s with
    | (Normal a, s') => (Normal a, s')
    | (Throw e, s') => handler e s'
    end.

Definition getState : M State := fun s => (Normal s, s).

Declare Scope js_scope.
Delimit Scope js_scope with js.
Notation "x <- c1 ;; c2" := (bind c1 (fun x => c2))
  (at level 61, c1 at next level, right associativity) : js_scope.
Notation "c1 ;; c2" := (bind c1 (fun _ => c2))
  (at level 61, right associativity) : js_scope.
Local Open Scope js_scope.

Definition setInputValue (v : string) : M unit := fun s =>
  (Normal tt, mkState v (trafficLightStatus s) (statusCategory s) (isUrl s)
                (confirmedInput s) (history s) (requests s) (errorsLogged s)).

Definition setTrafficLightStatus (v : TrafficLightStatus) : M unit := fun s =>
  (Normal tt, mkState (inputValue s) v (statusCategory s) (isUrl s)
                (confirmedInput s) (history s) (requests s) (errorsLogged s)).

Definition setStatusCategory (v : StatusCodeCategory) : M unit := fun s =>
  (Normal tt, mkState (inputValue s) (trafficLightStatus s) v (isUrl s)
                (confirmedInput s) (history s) (requests s) (errorsLogged s)).

Definition setIsUrl (v : bool) : M unit := fun s =>
  (Normal tt, mkState (inputValue s) (trafficLightStatus s) (statusCategory s) v
                (confirmedInput s) (history s) (requests s) (errorsLogged s)).

Definition setConfirmedInput (v : string) : M unit := fun s =>
  (Normal tt, mkState (inputValue s) (trafficLightStatus s) (statusCategory s)
                (isUrl s) v (history s) (requests s) (errorsLogged s)).

(** The [addStatus] of the hook, on the state of the component. *)
Definition addStatus (status : StatusEntry) : M unit := fun s =>
  (Normal tt, mkState (inputValue s) (trafficLightStatus s) (statusCategory s)
                (isUrl s) (confirmedInput s)
                (History.addStatus status (history s))
                (requests s) (errorsLogged s)).

(** [new URL(input)]: the [href], or a [TypeError]. *)
Definition newURL (w : World) (input : string) : M string := fun s =>
  match parseURL w input with
  | Some href => (Normal href, s)
  | None => (Throw TypeError, s)
  end.

(** [await fetch(u, { method: 'HEAD' })]: the request is issued, then the
    promise resolves to the status or rejects. *)
Definition fetchHEAD (w : World) (u : string) : M Z := fun s =>
  let s' := mkState (inputValue s) (trafficLightStatus s) (statusCategory s)
              (isUrl s) (confirmedInput s) (history s)
              (requests s ++ [u])%list (errorsLogged s) in
  match fetchHead w u with
  | Some status => (Normal status, s')
  | None => (Throw FetchError, s')
  end.

Definition consoleError : M unit := fun s =>
  (Normal tt, mkState (inputValue s) (trafficLightStatus s) (statusCategory s)
                (isUrl s) (confirmedInput s) (history s) (requests s)
                (S (errorsLogged s))).

(* ------------------------------------------------------------------ *)
(** ** [urlRequest] and [checkStatusCode] *)

Definition proxy : string := "https://cors-anywhere.herokuapp.com/".

Definition urlRequest (w : World) (input : string) : M (option Z) :=
  tryCatch
    (href <- newURL w (JsString.trim input) ;;
     status <- fetchHEAD w (proxy ++ href) ;;
     setIsUrl true ;;
     ret (Some status))
    (fun error => consoleError ;; ret None).

Definition checkStatusCode (w : World) : M unit :=
  render <- getState ;;
  let inputValue := inputValue render in
  let statusCategory := statusCategory render in
  if negb (JsString.truthy (JsString.trim inputValue)) then
    setTrafficLightStatus off ;;
    setStatusCategory invalid
  else
    setConfirmedInput inputValue ;;
    statusCode <-
      (if JsString.testDigits inputValue then
         setIsUrl false ;;
         ret (Some (JNumber (JsString.parseInt10 inputValue)))
       else
         probed <- urlRequest w inputValue ;;
         match probed with
         | Some n => ret (Some (JNumber n))
         | None => ret (phraseLookup inputValue)
         end) ;;
    match statusCode with
    | Some c =>
        addStatus (mkEntry c statusCategory (dateNow w)) ;;
        setTrafficLightStatus (fst (classifyCode c)) ;;
        setStatusCategory (snd (classifyCode c))
    | None =>
        setTrafficLightStatus orange ;;
        setStatusCategory invalid
    end.

(** [handleInputChange]. *)
Definition handleInputChange (value : string) (s : State) : State :=
  snd (setInputValue value s).

(** The user types [value] and presses the button; the state once the
    handler has finished. *)
Definition check (w : World) (value : string) (s : State) : State :=
  snd (checkStatusCode w (handleInputChange value s)).

(** The guard of the "Open URL in a new tab" button in the JSX:
    [trafficLightStatus === 'green' && isUrl]. *)
Definition showOpenUrlButton (s : State) : bool :=
  match trafficLightStatus s with green => isUrl s | _ => false end.

(** The value of [statusCode] when the classification starts: the three
    strategies of [checkStatusCode], without the effects. *)
Definition resolve (w : World) (input : string) : option JsValue :=
  if JsString.testDigits input then Some (JNumber (JsString.parseInt10 input))
  else
    match parseURL w (JsString.trim input) with
    | Some href =>
        match fetchHead w (proxy ++ href) with
        | Some n => Some (JNumber n)
        | None => phraseLookup input
        end
    | None => phraseLookup input
    end.

(** Whether the probe of [input] ends in the [catch] of [urlRequest]:
    [new URL] throws, or the request is rejected. *)
Definition probeFails (w : World) (input : string) : bool :=
  match parseURL w (JsString.trim input) with
  | Some href =>
      match fetchHead w (proxy ++ href) with
      | Some _ => false
      | None => true
      end
  | None => true
  end.

(** Two worlds for the examples.  Both parse a string as an absolute URL
    when it starts with [http://] or [https://]; in the first every
    request is answered with 200, in the second every request fails. *)
Definition parseHttp (s : string) : option string :=
  if prefix "http://" s || prefix "https://" s then Some (s ++ "/") else None.

Definition onlineWorld : World := mkWorld parseHttp (fun _ => Some 200%Z) 1700000000000.
Definition offlineWorld : World := mkWorld parseHttp (fun _ => None) 1700000000000.

(* ------------------------------------------------------------------ *)
(** ** The rest of the render, and sessions *)

(** The argument of [window.open] in the [onClick] of the button:
    [inputValue.trim()], the input as it is when the button is pressed. *)
Definition openUrlTarget (s : State) : string := JsString.trim (inputValue s).

(** The guard of [InfoButton]: the mobile branch of the JSX, and
    [trafficLightStatus !== 'off']. *)
Definition showInfoButton (isMobile : bool) (s : State) : bool :=
  isMobile && match trafficLightStatus s with off => false | _ => true end.

(** A session: the component is mounted, then the user types an input
    and presses the button, once per step, each step in its own world. *)
Definition session (steps : list (World * string)) : State :=
  fold_left (fun s step => check (fst step) (snd step) s) steps initialState.

(** Whether a step reaches the call of [addStatus]: the input is not
    blank and [statusCode] is not [null] after the three strategies. *)
Definition appends (step : World * string) : bool :=
  negb (JsString.allWhite (snd step))
  && match resolve (fst step) (snd step) with Some _ => true | None => false end.

(* ------------------------------------------------------------------ *)
(** ** The component [StatusHistoryChart] *)

Module Chart.

Definition categoryColors (c : StatusCodeCategory) : string :=
  match c with
  | cat1xx => "#7FDBFF"
  | cat2xx => "#2ECC40"
  | cat3xx => "#FF851B"
  | cat4xx => "#FF4136"
  | cat5xx => "#B10DC9"
  | invalid => "#AAAAAA"
  end.

(** The decimal numeral of an index, as a template literal prints it. *)
Definition decimal (n : nat) : string := NilZero.string_of_uint (Nat.to_uint n).

(** [Array.prototype.map] with a callback that takes the element and its
    index. *)
Fixpoint mapFrom {A B} (i : nat) (f : A -> nat -> B) (l : list A) : list B :=
  match l with
  | [] => []
  | x :: r => f x i :: mapFrom (S i) f r
  end.

Definition mapIndexed {A B} (f : A -> nat -> B) (l : list A) : list B :=
  mapFrom 0 f l.

(** The [labels] and the one dataset handed to [Bar]. *)
Record ChartData := mkChart {
  labels : list string;
  data : list JsValue;
  backgroundColor : list string
}.

Definition StatusHistoryChart (history : list StatusEntry) : ChartData :=
  let labels := mapIndexed (fun _ i => "#" ++ decimal (i + 1)) history in
  mkChart labels
    (map (fun h => code h) history)
    (map (fun h => categoryColors (category h)) history).

End Chart.

(* ------------------------------------------------------------------ *)
(** ** Facts about the string built-ins *)

Module JsStringFacts.
Import JsString.

Lemma isWhiteSpace_lowerUnit (c : ascii) :
  isWhiteSpace (lowerUnit c) = isWhiteSpace c.
Proof. destruct c as [[] [] [] [] [] [] [] []]; reflexivity. Qed.

Lemma lowerUnit_idem (c : ascii) : lowerUnit (lowerUnit c) = lowerUnit c.
Proof. destruct c as [[] [] [] [] [] [] [] []]; reflexivity. Qed.

Lemma isDigit_not_white (c : ascii) :
  isDigit c = true -> isWhiteSpace c = false.
Proof. destruct c as [[] [] [] [] [] [] [] []]; vm_compute; congruence. Qed.

Lemma toLowerCase_idem (s : string) :
  toLowerCase (toLowerCase s) = toLowerCase s.
Proof.
  induction s as [|c s IH]; simpl; [reflexivity|].
  now rewrite lowerUnit_idem, IH.
Qed.

Lemma toLowerCase_app (a b : string) :
  toLowerCase (a ++ b) = toLowerCase a ++ toLowerCase b.
Proof. induction a as [|c a IH]; simpl; [reflexivity | now rewrite IH]. Qed.

Lemma allWhite_toLowerCase (s : string) :
  allWhite (toLowerCase s) = allWhite s.
Proof.
  induction s as [|c s IH]; simpl; [reflexivity|].
  now rewrite isWhiteSpace_lowerUnit, IH.
Qed.

Lemma trimStart_allWhite (s : string) :
  allWhite s = true -> trimStart s = "".
Proof.
  induction s as [|c s IH]; simpl; [reflexivity|].
  intros H. apply andb_prop in H as [Hc Hs]. rewrite Hc. auto.
Qed.

Lemma trimStart_empty (s : string) :
  trimStart s = "" -> allWhite s = true.
Proof.
  induction s as [|c s IH]; simpl; [reflexivity|].
  destruct (isWhiteSpace c); simpl; [exact IH | discriminate].
Qed.

Lemma trimStart_head (s : string) c r :
  trimStart s = String c r -> isWhiteSpace c = false.
Proof.
  induction s as [|d s IH]; simpl; [discriminate|].
  destruct (isWhiteSpace d) eqn:Hd; [exact IH|].
  intros E. injection E as -> _. exact Hd.
Qed.

Lemma trimEnd_allWhite (s : string) :
  allWhite s = true -> trimEnd s = "".
Proof.
  induction s as [|c s IH]; simpl; [reflexivity|].
  intros H. apply andb_prop in H as [Hc Hs].
  rewrite (IH Hs), Hc. reflexivity.
Qed.

Lemma trimEnd_empty (s : string) :
  trimEnd s = "" -> allWhite s = true.
Proof.
  induction s as [|c s IH]; simpl; [reflexivity|].
  destruct (trimEnd s) eqn:E; [|discriminate].
  destruct (isWhiteSpace c); [intros _; simpl; auto | discriminate].
Qed.

(** An input is blank (empty, or white space only) exactly when its
    trimmed form is the empty string. *)
Lemma trim_blank (s : string) : allWhite s = true <-> trim s = "".
Proof.
  unfold trim. split.
  - intros H. now rewrite (trimStart_allWhite s H).
  - intros H. apply trimEnd_empty in H.
    destruct (trimStart s) as [|c r] eqn:E.
    + now apply trimStart_empty.
    + apply trimStart_head in E. simpl in H. rewrite E in H. discriminate.
Qed.

Lemma truthy_trim (s : string) :
  truthy (trim s) = negb (allWhite s).
Proof.
  destruct (allWhite s) eqn:E.
  - apply trim_blank in E. now rewrite E.
  - destruct (trim s) eqn:T; [|reflexivity].
    apply trim_blank in T. congruence.
Qed.

Lemma trimStart_app_l (l s : string) :
  allWhite l = true -> trimStart (l ++ s) = trimStart s.
Proof.
  induction l as [|c l IH]; simpl; [reflexivity|].
  intros H. apply andb_prop in H as [Hc Hl]. rewrite Hc. auto.
Qed.

Lemma trimEnd_app_r (s r : string) :
  allWhite r = true -> trimEnd (s ++ r) = trimEnd s.
Proof.
  intros Hr. induction s as [|c s IH]; simpl.
  - now apply trimEnd_allWhite.
  - now rewrite IH.
Qed.

Lemma trim_app_r (s r : string) :
  allWhite r = true -> trim (s ++ r) = trim s.
Proof.
  intros Hr. unfold trim. induction s as [|c s IH]; simpl.
  - now rewrite (trimStart_allWhite r Hr).
  - destruct (isWhiteSpace c); [exact IH|].
    change (String c (s ++ r)) with (String c s ++ r).
    now apply trimEnd_app_r.
Qed.

(** Trimming forgets white space added at either end. *)
Lemma trim_pad (l s r : string) :
  allWhite l = true -> allWhite r = true -> trim (l ++ s ++ r) = trim s.
Proof.
  intros Hl Hr. unfold trim at 1. rewrite (trimStart_app_l l _ Hl).
  now apply trim_app_r.
Qed.

Lemma testDigits_not_blank (s : string) :
  testDigits s = true -> allWhite s = false.
Proof.
  destruct s as [|c s]; simpl; [discriminate|].
  intros H. apply andb_prop in H as [Hc _].
  now rewrite (isDigit_not_white c Hc).
Qed.


End JsStringFacts.

(* ------------------------------------------------------------------ *)
(** ** The history buffer *)

Module HistoryFacts.
Import History.

Section Buffer.
Context {A : Type}.
Implicit Types (l h : list A) (n : nat).

Lemma slice_neg_lastn l (n : nat) :
  slice (- Z.of_nat n) l = if Nat.eqb n 0 then l else lastn n l.
Proof.
  unfold slice, lastn. destruct (Nat.eqb_spec n 0) as [->|Hn].
  - simpl. rewrite Z.min_l by lia. reflexivity.
  - replace (- Z.of_nat n <? 0)%Z with true
      by (symmetry; apply Z.ltb_lt; lia).
    f_equal. lia.
Qed.

Lemma lastn_length n l : List.length (lastn n l) = Nat.min n (List.length l).
Proof. unfold lastn. rewrite length_skipn. lia. Qed.

Lemma lastn_suffix n l :
  l = (firstn (List.length l - n) l ++ lastn n l)%list.
Proof. unfold lastn. now rewrite firstn_skipn. Qed.

Lemma lastn_push n h (x : A) :
  lastn n (lastn n h ++ [x]) = lastn n (h ++ [x]).
Proof.
  unfold lastn.
  rewrite !length_app, length_skipn, !skipn_app, skipn_skipn, length_skipn.
  simpl. f_equal; f_equal; lia.
Qed.

End Buffer.

Lemma addStatus_lastn e h : addStatus e h = lastn 10 (h ++ [e]).
Proof. unfold addStatus. exact (slice_neg_lastn (h ++ [e]) 10). Qed.

Lemma run_from pre entries :
  fold_left (fun h e => addStatus e h) entries (lastn 10 pre)
  = lastn 10 (pre ++ entries).
Proof.
  revert pre. induction entries as [|e es IH]; intros pre; simpl.
  - now rewrite app_nil_r.
  - rewrite addStatus_lastn, lastn_push, IH, <- app_assoc. reflexivity.
Qed.

Lemma run_lastn entries : run entries = lastn 10 entries.
Proof. exact (run_from [] entries). Qed.

End HistoryFacts.

(* ------------------------------------------------------------------ *)
(** ** Properties of the specification *)

(** C2. Whatever entries are appended, and in whatever state the buffer
    is, an append leaves at most 10 entries; after any sequence of appends
    from the empty buffer the history holds at most 10 entries, and they
    are exactly the last [min 10 n] of the [n] appended ones, in the order
    of their insertion: the sequence of appends is some evicted prefix
    followed by the history. *)
Theorem history_bounded_most_recent :
  (forall (h : list StatusEntry) (e : StatusEntry),
      (List.length (History.addStatus e h) <= 10)%nat)
  /\ forall entries : list StatusEntry,
      (List.length (History.run entries) <= 10)%nat
      /\ List.length (History.run entries) = Nat.min 10 (List.length entries)
      /\ History.run entries = skipn (List.length entries - 10) entries
      /\ entries
         = (firstn (List.length entries - 10) entries ++ History.run entries)%list.
Proof.
  split.
  - intros h e. rewrite HistoryFacts.addStatus_lastn, HistoryFacts.lastn_length.
    lia.
  - intros entries. rewrite HistoryFacts.run_lastn.
    rewrite HistoryFacts.lastn_length.
    repeat split; try lia.
    apply HistoryFacts.lastn_suffix.
Qed.

(** C1. The classification by ranges: a code from 100 to 399 lights
    green with the category of its hundred, a code from 400 to 599 lights
    red with the category of its hundred, and every other integer, like an
    absent code, is [invalid] with the orange light. *)
Theorem classify_ranges (c : Z) :
  (100 <= c <= 199 -> classify (Some (JNumber c)) = (green, cat1xx))
  /\ (200 <= c <= 299 -> classify (Some (JNumber c)) = (green, cat2xx))
  /\ (300 <= c <= 399 -> classify (Some (JNumber c)) = (green, cat3xx))
  /\ (400 <= c <= 499 -> classify (Some (JNumber c)) = (red, cat4xx))
  /\ (500 <= c <= 599 -> classify (Some (JNumber c)) = (red, cat5xx))
  /\ (c < 100 \/ 599 < c -> classify (Some (JNumber c)) = (orange, invalid))
  /\ classify None = (orange, invalid).
Proof.
  unfold classify, classifyCode, js_ge, js_lt.
  repeat split; try intros H;
    repeat match goal with
      | |- context [(?a <=? ?b)%Z] => destruct (Z.leb_spec a b)
      | |- context [(?a <? ?b)%Z] => destruct (Z.ltb_spec a b)
      end; simpl; try reflexivity; lia.
Qed.

Lemma classify_ranges_witness :
  classify (Some (JNumber 101)) = (green, cat1xx)
  /\ classify (Some (JNumber 204)) = (green, cat2xx)
  /\ classify (Some (JNumber 399)) = (green, cat3xx)
  /\ classify (Some (JNumber 400)) = (red, cat4xx)
  /\ classify (Some (JNumber 599)) = (red, cat5xx)
  /\ classify (Some (JNumber 9999)) = (orange, invalid)
  /\ classify (Some (JNumber 99)) = (orange, invalid).
Proof.
  split; [|split; [|split; [|split; [|split; [|split]]]]].
  - destruct (classify_ranges 101) as (H & _). apply H. lia.
  - destruct (classify_ranges 204) as (_ & H & _). apply H. lia.
  - destruct (classify_ranges 399) as (_ & _ & H & _). apply H. lia.
  - destruct (classify_ranges 400) as (_ & _ & _ & H & _). apply H. lia.
  - destruct (classify_ranges 599) as (_ & _ & _ & _ & H & _). apply H. lia.
  - destruct (classify_ranges 9999) as (_ & _ & _ & _ & _ & H & _). apply H. lia.
  - destruct (classify_ranges 99) as (_ & _ & _ & _ & _ & H & _). apply H. lia.
Defined.

(* ------------------------------------------------------------------ *)
(** ** What one check does to the state *)

Ltac unfold_js :=
  unfold check, handleInputChange, checkStatusCode, urlRequest, tryCatch,
    bind, ret, getState, newURL, fetchHEAD, consoleError, addStatus,
    setInputValue, setTrafficLightStatus, setStatusCategory, setIsUrl,
    setConfirmedInput; cbn [fst snd inputValue trafficLightStatus
    statusCategory isUrl confirmedInput history requests errorsLogged].

Section OneCheck.
Local Opaque proxy.
Variable w : World.
Variable s : State.
Variable v : string.

(** [urlRequest] step by step: it always completes normally. *)
Lemma urlRequest_run :
  urlRequest w v s =
  match parseURL w (JsString.trim v) with
  | Some href =>
      match fetchHead w (proxy ++ href) with
      | Some n =>
          (Normal (Some n),
           mkState (inputValue s) (trafficLightStatus s) (statusCategory s)
             true (confirmedInput s) (history s)
             (requests s ++ [(proxy ++ href)%string])%list (errorsLogged s))
      | None =>
          (Normal None,
           mkState (inputValue s) (trafficLightStatus s) (statusCategory s)
             (isUrl s) (confirmedInput s) (history s)
             (requests s ++ [(proxy ++ href)%string])%list (S (errorsLogged s)))
      end
  | None =>
      (Normal None,
       mkState (inputValue s) (trafficLightStatus s) (statusCategory s)
         (isUrl s) (confirmedInput s) (history s) (requests s)
         (S (errorsLogged s)))
  end.
Proof.
  unfold_js. destruct (parseURL w (JsString.trim v)) as [href|];
    [destruct (fetchHead w (proxy ++ href))|]; reflexivity.
Qed.

Lemma checkStatusCode_normal : fst (checkStatusCode w s) = Normal tt.
Proof.
  unfold_js.
  destruct (JsString.truthy (JsString.trim (inputValue s))); simpl;
    [|reflexivity].
  destruct (JsString.testDigits (inputValue s)); simpl.
  - reflexivity.
  - destruct (parseURL w (JsString.trim (inputValue s))) as [href|]; simpl;
      [destruct (fetchHead w (proxy ++ href)); simpl|];
      try destruct (phraseLookup (inputValue s)); reflexivity.
Qed.

Lemma check_blank :
  JsString.allWhite v = true ->
  check w v s =
  mkState v off invalid (isUrl s) (confirmedInput s) (history s)
    (requests s) (errorsLogged s).
Proof.
  intros Hb. unfold_js.
  rewrite JsStringFacts.truthy_trim, Hb. reflexivity.
Qed.

Lemma check_digits :
  JsString.testDigits v = true ->
  check w v s =
  let c := JNumber (JsString.parseInt10 v) in
  mkState v (fst (classifyCode c)) (snd (classifyCode c)) false v
    (History.addStatus (mkEntry c (statusCategory s) (dateNow w)) (history s))
    (requests s) (errorsLogged s).
Proof.
  intros Hd. unfold_js.
  rewrite JsStringFacts.truthy_trim,
    (JsStringFacts.testDigits_not_blank v Hd), Hd.
  reflexivity.
Qed.

Lemma check_history :
  JsString.allWhite v = false ->
  history (check w v s) =
  match resolve w v with
  | Some c =>
      History.addStatus (mkEntry c (statusCategory s) (dateNow w)) (history s)
  | None => history s
  end.
Proof.
  intros Hb. unfold_js. unfold resolve.
  rewrite JsStringFacts.truthy_trim, Hb. simpl.
  destruct (JsString.testDigits v); simpl; [reflexivity|].
  destruct (parseURL w (JsString.trim v)) as [href|]; simpl;
    [destruct (fetchHead w (proxy ++ href)); simpl|];
    try destruct (phraseLookup v); reflexivity.
Qed.

Lemma check_display :
  JsString.allWhite v = false ->
  (trafficLightStatus (check w v s), statusCategory (check w v s))
  = classify (resolve w v).
Proof.
  intros Hb. unfold_js. unfold resolve, classify.
  rewrite JsStringFacts.truthy_trim, Hb. simpl.
  destruct (JsString.testDigits v); simpl;
    [now destruct (classifyCode _)|].
  destruct (parseURL w (JsString.trim v)) as [href|]; simpl;
    [destruct (fetchHead w (proxy ++ href)); simpl|];
    try destruct (phraseLookup v); simpl;
    try reflexivity; now destruct (classifyCode _).
Qed.

Lemma check_isUrl :
  isUrl (check w v s) =
  if JsString.allWhite v then isUrl s
  else if JsString.testDigits v then false
  else if probeFails w v then isUrl s
  else true.
Proof.
  unfold_js. unfold probeFails.
  rewrite JsStringFacts.truthy_trim.
  destruct (JsString.allWhite v); simpl; [reflexivity|].
  destruct (JsString.testDigits v); simpl; [reflexivity|].
  destruct (parseURL w (JsString.trim v)) as [href|]; simpl;
    [destruct (fetchHead w (proxy ++ href)); simpl|];
    try destruct (phraseLookup v); reflexivity.
Qed.

Lemma resolve_probe_failed :
  JsString.testDigits v = false -> probeFails w v = true ->
  resolve w v = phraseLookup v.
Proof.
  unfold resolve, probeFails. intros ->.
  destruct (parseURL w (JsString.trim v)) as [href|]; [|reflexivity].
  destruct (fetchHead w (proxy ++ href)); [discriminate | reflexivity].
Qed.

Local Transparent proxy.
End OneCheck.

(** The light of a code in the three successful hundreds. *)
Lemma classify_green (c : Z) :
  100 <= c < 400 -> fst (classify (Some (JNumber c))) = green.
Proof.
  intros H. unfold classify, classifyCode, js_ge, js_lt.
  repeat match goal with
    | |- context [(?a <=? ?b)%Z] => destruct (Z.leb_spec a b)
    | |- context [(?a <? ?b)%Z] => destruct (Z.ltb_spec a b)
    end; simpl; try reflexivity; lia.
Qed.

(** A blank input is not a phrase of the table. *)
Lemma phraseLookup_blank (v : string) :
  JsString.allWhite v = true -> phraseLookup v = None.
Proof.
  intros Hb. unfold phraseLookup.
  rewrite <- JsStringFacts.allWhite_toLowerCase in Hb.
  apply JsStringFacts.trim_blank in Hb. rewrite Hb. reflexivity.
Qed.

Lemma phraseLookup_pad (l v r : string) :
  JsString.allWhite l = true -> JsString.allWhite r = true ->
  phraseLookup (l ++ v ++ r) = phraseLookup v.
Proof.
  intros Hl Hr. unfold phraseLookup.
  rewrite !JsStringFacts.toLowerCase_app, JsStringFacts.trim_pad;
    [reflexivity | | ]; now rewrite JsStringFacts.allWhite_toLowerCase.
Qed.

(** C5. A blank input (empty, or white space only) goes through no
    strategy and no classification: the light is switched off, the
    category reset, and the history, the flag, the confirmed input, the
    list of requests and the error log are those of the state before. *)
Theorem blank_input_switches_off (w : World) (s : State) (v : string) :
  JsString.allWhite v = true ->
  check w v s =
    mkState v off invalid (isUrl s) (confirmedInput s) (history s)
      (requests s) (errorsLogged s)
  /\ trafficLightStatus (check w v s) = off
  /\ history (check w v s) = history s
  /\ requests (check w v s) = requests s
  /\ errorsLogged (check w v s) = errorsLogged s.
Proof.
  intros Hb. rewrite (check_blank w s v Hb). repeat split.
Qed.

Lemma blank_input_switches_off_witness :
  let s := check onlineWorld "https://example.com" initialState in
  trafficLightStatus (check onlineWorld "   " s) = off
  /\ history (check onlineWorld "   " s) = history s
  /\ requests (check onlineWorld "   " s) = requests s.
Proof.
  intros s.
  destruct (blank_input_switches_off onlineWorld s "   " eq_refl)
    as (_ & Hl & Hh & Hr & _).
  split; [exact Hl | split; [exact Hh | exact Hr]].
Defined.

(** C8. The phrase lookup does not depend on the case of the letters nor
    on white space around the phrase: the three spellings of "not found"
    give 404, white space added at either end of any input changes
    nothing, nor does lowering the input, and two inputs that lower to the
    same string give the same result.  When the URL probe of such an
    input fails, which is what [new URL] does with a string that has no
    scheme, 404 is the resolved code. *)
Theorem phrase_lookup_case_and_space :
  phraseLookup "Not Found" = Some (JNumber 404)
  /\ phraseLookup " not found " = Some (JNumber 404)
  /\ phraseLookup "NOT FOUND" = Some (JNumber 404)
  /\ (forall l v r : string,
        JsString.allWhite l = true -> JsString.allWhite r = true ->
        phraseLookup (l ++ v ++ r) = phraseLookup v)
  /\ (forall v : string, phraseLookup (JsString.toLowerCase v) = phraseLookup v)
  /\ (forall v v' : string,
        JsString.toLowerCase v = JsString.toLowerCase v' ->
        phraseLookup v = phraseLookup v')
  /\ (forall (w : World) (v : string),
        In v ["Not Found"; " not found "; "NOT FOUND"] ->
        probeFails w v = true ->
        resolve w v = Some (JNumber 404)).
Proof.
  split; [reflexivity|]. split; [reflexivity|]. split; [reflexivity|].
  split; [exact phraseLookup_pad|].
  split; [|split].
  - intros v. unfold phraseLookup.
    now rewrite JsStringFacts.toLowerCase_idem.
  - intros v v' E. unfold phraseLookup. now rewrite E.
  - intros w v Hin Hp.
    rewrite resolve_probe_failed; [| |exact Hp];
      simpl in Hin; destruct Hin as [<-|[<-|[<-|[]]]]; reflexivity.
Qed.

Lemma phrase_lookup_case_and_space_witness :
  phraseLookup ("  " ++ "Bad Gateway" ++ " ") = phraseLookup "Bad Gateway"
  /\ phraseLookup "BAD gateway" = phraseLookup "bad GATEWAY"
  /\ resolve offlineWorld "NOT FOUND" = Some (JNumber 404).
Proof.
  destruct phrase_lookup_case_and_space as (_ & _ & _ & Hpad & _ & Hcase & Hres).
  split; [|split].
  - apply Hpad; reflexivity.
  - apply Hcase; reflexivity.
  - apply Hres; [simpl; auto | reflexivity].
Defined.

(** C9. A check that is not numeric and whose URL probe fails, whether
    the phrase is then found or not, leaves [isUrl] as the previous check
    left it.  So when a URL check has succeeded and the next input is a
    phrase of a green category, the "Open URL in a new tab" button is
    rendered although the input is a phrase and not a URL. *)
Theorem phrase_path_keeps_isUrl (w : World) (s : State) (v : string) :
  JsString.testDigits v = false ->
  probeFails w v = true ->
  isUrl (check w v s) = isUrl s
  /\ forall (w0 : World) (s0 : State) (u : string) (c : Z),
      s = check w0 u s0 ->
      JsString.allWhite u = false ->
      JsString.testDigits u = false ->
      probeFails w0 u = false ->
      phraseLookup v = Some (JNumber c) ->
      100 <= c < 400 ->
      trafficLightStatus (check w v s) = green
      /\ showOpenUrlButton (check w v s) = true.
Proof.
  intros Hd Hp.
  assert (Hflag : isUrl (check w v s) = isUrl s).
  { rewrite check_isUrl, Hd, Hp. now destruct (JsString.allWhite v). }
  split; [exact Hflag|].
  intros w0 s0 u c Hs Hbu Hdu Hpu Hv Hc.
  assert (Hb : JsString.allWhite v = false).
  { destruct (JsString.allWhite v) eqn:E; [|reflexivity].
    rewrite (phraseLookup_blank v E) in Hv. discriminate. }
  assert (Hl : trafficLightStatus (check w v s) = green).
  { pose proof (check_display w s v Hb) as Hdis.
    rewrite (resolve_probe_failed w v Hd Hp), Hv in Hdis.
    assert (Hg : fst (classify (Some (JNumber c))) = green).
    { now apply classify_green. }
    rewrite <- Hdis in Hg. exact Hg. }
  split; [exact Hl|].
  unfold showOpenUrlButton. rewrite Hl, Hflag, Hs, check_isUrl, Hbu, Hdu, Hpu.
  reflexivity.
Qed.

Lemma phrase_path_keeps_isUrl_witness :
  let s := check onlineWorld "https://example.com" initialState in
  isUrl (check offlineWorld "ok" s) = isUrl s
  /\ trafficLightStatus (check offlineWorld "ok" s) = green
  /\ showOpenUrlButton (check offlineWorld "ok" s) = true.
Proof.
  intros s.
  destruct (phrase_path_keeps_isUrl offlineWorld s "ok" eq_refl eq_refl)
    as [Hflag Hshow].
  split; [exact Hflag|].
  apply (Hshow onlineWorld initialState "https://example.com" 200);
    try reflexivity; lia.
Defined.

(** C3. The entry that a check appends carries the category that was on
    display before the check, not the category of its own code: the first
    check of a session, on "200", in any world, appends an entry of
    category [invalid], the initial value of the state, while 200
    classifies as 2xx and 2xx is what the check goes on to display.  A
    second check, on "404", appends an entry marked 2xx. *)
Theorem appended_entry_has_previous_category (w : World) :
  history (check w "200" initialState)
    = [mkEntry (JNumber 200) invalid (dateNow w)]
  /\ classify (Some (JNumber 200)) = (green, cat2xx)
  /\ statusCategory (check w "200" initialState) = cat2xx
  /\ history (check w "404" (check w "200" initialState))
     = [mkEntry (JNumber 200) invalid (dateNow w);
        mkEntry (JNumber 404) cat2xx (dateNow w)]
  /\ snd (classify (Some (JNumber 404))) = cat4xx.
Proof.
  rewrite (check_digits w (check w "200" initialState) "404" eq_refl).
  rewrite (check_digits w initialState "200" eq_refl).
  repeat split.
Qed.

(** C4. Digits with white space around them are not read as a number:
    the test for digits is made on the input as typed, so " 200 ", whose
    trimmed form is all digits, goes to the URL probe, in every world; the
    resolved code is whatever the probe answers, and when the probe
    fails, as it does for the relative reference "200", the phrase
    lookup fails too and the check ends on [invalid] with no entry
    appended and one error logged by [urlRequest]. *)
Theorem padded_digits_skip_numeric_parse :
  JsString.testDigits (JsString.trim " 200 ") = true
  /\ JsString.parseInt10 (JsString.trim " 200 ") = 200
  /\ JsString.testDigits " 200 " = false
  /\ (forall w : World,
        resolve w " 200 " =
        match parseURL w "200" with
        | Some href => option_map JNumber (fetchHead w (proxy ++ href))
        | None => None
        end)
  /\ resolve offlineWorld " 200 " = None
  /\ check offlineWorld " 200 " initialState
     = mkState " 200 " orange invalid false " 200 " [] [] 1.
Proof.
  split; [reflexivity|]. split; [reflexivity|]. split; [reflexivity|].
  split; [|split; reflexivity].
  intros w. unfold resolve. cbn [JsString.testDigits JsString.allDigits
    JsString.isDigit andb].
  change (JsString.trim " 200 ") with "200".
  destruct (parseURL w "200") as [href|]; [|reflexivity].
  destruct (fetchHead w (proxy ++ href)); reflexivity.
Qed.

(** C7. A failed URL probe does not reset the flag: after a URL check
    that succeeded, a check of the same URL with the transport failing
    makes [urlRequest] yield [null], ends on [invalid], and leaves
    [isUrl] true.  The numeric branch, by contrast, resets the flag. *)
Theorem failed_probe_leaves_flag_set :
  let s := check onlineWorld "https://example.com" initialState in
  isUrl s = true
  /\ probeFails offlineWorld "https://example.com" = true
  /\ fst (urlRequest offlineWorld "https://example.com" s) = Normal None
  /\ statusCategory (check offlineWorld "https://example.com" s) = invalid
  /\ isUrl (check offlineWorld "https://example.com" s) = true
  /\ isUrl (check offlineWorld "200" s) = false.
Proof. repeat split. Qed.

(** C10. The history also grows when no number is resolved: the input
    "constructor" is not a key of the table, but the read
    [statusCodeMap["constructor"]] finds the property inherited from
    [Object.prototype]; it is truthy and not [null], so an entry is
    appended whose code is that object, and the check ends on
    [invalid]. *)
Theorem inherited_key_is_appended :
  ownProperty "constructor" statusCodeMap = None
  /\ phraseLookup "constructor" = Some (JObject "constructor")
  /\ resolve offlineWorld "constructor" = Some (JObject "constructor")
  /\ history (check offlineWorld "constructor" initialState)
     = [mkEntry (JObject "constructor") invalid (dateNow offlineWorld)]
  /\ statusCategory (check offlineWorld "constructor" initialState) = invalid.
Proof. repeat split. Qed.

(** C6, as stated, fails: with the probe failing the check does not
    always end on [invalid]; for the input "not found" the phrase lookup
    takes over and the category is 4xx. *)
Lemma failed_probe_not_always_invalid :
  ~ (forall (w : World) (s : State) (v : string),
       probeFails w v = true -> statusCategory (check w v s) = invalid).
Proof.
  intros H.
  specialize (H offlineWorld initialState "not found" eq_refl).
  discriminate H.
Qed.

(** C6, amended. [urlRequest] completes normally for every input, state
    and world, with [null] whenever the URL does not parse or the request
    is rejected, and [checkStatusCode] completes normally too.  After a
    failed probe the check displays the classification of what the phrase
    lookup gives: orange and [invalid] when the lookup finds nothing. *)
Theorem urlRequest_never_throws (w : World) (s : State) (v : string) :
  (exists r s', urlRequest w v s = (Normal r, s'))
  /\ (probeFails w v = true -> fst (urlRequest w v s) = Normal None)
  /\ fst (checkStatusCode w s) = Normal tt
  /\ (JsString.allWhite v = false -> JsString.testDigits v = false ->
      probeFails w v = true ->
      (trafficLightStatus (check w v s), statusCategory (check w v s))
      = classify (phraseLookup v))
  /\ (JsString.allWhite v = false -> JsString.testDigits v = false ->
      probeFails w v = true -> phraseLookup v = None ->
      trafficLightStatus (check w v s) = orange
      /\ statusCategory (check w v s) = invalid).
Proof.
  assert (Hdisp : JsString.allWhite v = false -> JsString.testDigits v = false ->
      probeFails w v = true ->
      (trafficLightStatus (check w v s), statusCategory (check w v s))
      = classify (phraseLookup v)).
  { intros Hb Hd Hp.
    now rewrite (check_display w s v Hb), (resolve_probe_failed w v Hd Hp). }
  split; [|split; [|split; [|split]]].
  - rewrite urlRequest_run.
    destruct (parseURL w (JsString.trim v)) as [href|];
      [destruct (fetchHead w (proxy ++ href))|]; eauto.
  - unfold probeFails. rewrite urlRequest_run.
    destruct (parseURL w (JsString.trim v)) as [href|];
      [destruct (fetchHead w (proxy ++ href))|];
      (discriminate || reflexivity).
  - apply checkStatusCode_normal.
  - exact Hdisp.
  - intros Hb Hd Hp Hn. specialize (Hdisp Hb Hd Hp).
    rewrite Hn in Hdisp. simpl in Hdisp. now inversion Hdisp.
Qed.

Lemma urlRequest_never_throws_witness :
  fst (urlRequest offlineWorld "https://example.com" initialState) = Normal None
  /\ (trafficLightStatus (check offlineWorld "not found" initialState),
      statusCategory (check offlineWorld "not found" initialState))
     = classify (phraseLookup "not found")
  /\ trafficLightStatus (check offlineWorld "https://example.com" initialState)
     = orange
  /\ statusCategory (check offlineWorld "https://example.com" initialState)
     = invalid.
Proof.
  split; [|split].
  - destruct (urlRequest_never_throws offlineWorld initialState
                "https://example.com") as (_ & H & _).
    apply H. reflexivity.
  - destruct (urlRequest_never_throws offlineWorld initialState "not found")
      as (_ & _ & _ & H & _).
    apply H; reflexivity.
  - destruct (urlRequest_never_throws offlineWorld initialState
                "https://example.com") as (_ & _ & _ & _ & H).
    apply H; reflexivity.
Defined.

(* ------------------------------------------------------------------ *)
(** ** Further properties: the hook and the table *)

Lemma trimStart_toLowerCase (s : string) :
  JsString.trimStart (JsString.toLowerCase s)
  = JsString.toLowerCase (JsString.trimStart s).
Proof.
  induction s as [|c s IH]; simpl; [reflexivity|].
  rewrite JsStringFacts.isWhiteSpace_lowerUnit.
  destruct (JsString.isWhiteSpace c); [exact IH | reflexivity].
Qed.

Lemma trimEnd_toLowerCase (s : string) :
  JsString.trimEnd (JsString.toLowerCase s)
  = JsString.toLowerCase (JsString.trimEnd s).
Proof.
  induction s as [|c s IH]; simpl; [reflexivity|].
  rewrite IH, JsStringFacts.isWhiteSpace_lowerUnit.
  destruct (JsString.trimEnd s); simpl; [|reflexivity].
  now destruct (JsString.isWhiteSpace c).
Qed.

(** Lowering and trimming commute. *)
Lemma trim_toLowerCase (s : string) :
  JsString.trim (JsString.toLowerCase s)
  = JsString.toLowerCase (JsString.trim s).
Proof.
  unfold JsString.trim. now rewrite trimStart_toLowerCase, trimEnd_toLowerCase.
Qed.

Lemma ownProperty_In (key : string) (tbl : list (string * Z)) (n : Z) :
  ownProperty key tbl = Some n -> In (key, n) tbl.
Proof.
  induction tbl as [|[k v] rest IH]; simpl; [discriminate|].
  destruct (String.eqb_spec k key) as [->|_].
  - intros E. injection E as ->. now left.
  - intros E. right. auto.
Qed.

(** Every row of the table: the key is found as it is written, and the
    code lies between 100 and 505. *)
Lemma statusCodeMap_rows :
  Forall (fun row => phraseLookup (fst row) = Some (JNumber (snd row))
                     /\ 100 <= snd row <= 505) statusCodeMap.
Proof.
  unfold statusCodeMap.
  repeat (apply Forall_cons; [split; [reflexivity | simpl; lia]|]).
  apply Forall_nil.
Qed.

Lemma classify_red (c : Z) :
  400 <= c < 600 -> fst (classify (Some (JNumber c))) = red.
Proof.
  intros H. unfold classify, classifyCode, js_ge, js_lt.
  repeat match goal with
    | |- context [(?a <=? ?b)%Z] => destruct (Z.leb_spec a b)
    | |- context [(?a <? ?b)%Z] => destruct (Z.ltb_spec a b)
    end; simpl; try reflexivity; lia.
Qed.

(** X1. What one [addStatus] does to the array of the hook: it keeps the
    nine most recent entries and puts the new one last.  Below ten
    entries nothing is dropped; at ten, exactly the oldest one is. *)
Theorem addStatus_keeps_nine (e : StatusEntry) (h : list StatusEntry) :
  History.addStatus e h = (skipn (List.length h - 9) h ++ [e])%list
  /\ ((List.length h < 10)%nat -> History.addStatus e h = (h ++ [e])%list)
  /\ ((List.length h = 10)%nat -> History.addStatus e h = (tl h ++ [e])%list).
Proof.
  assert (E : History.addStatus e h = (skipn (List.length h - 9) h ++ [e])%list).
  { rewrite HistoryFacts.addStatus_lastn. unfold History.lastn.
    rewrite length_app, skipn_app. simpl List.length.
    replace (List.length h + 1 - 10)%nat with (List.length h - 9)%nat by lia.
    replace (List.length h - 9 - List.length h)%nat with 0%nat by lia.
    reflexivity. }
  split; [exact E|]. split; intros H; rewrite E.
  - replace (List.length h - 9)%nat with 0%nat by lia. reflexivity.
  - rewrite H. destruct h; reflexivity.
Qed.

Lemma addStatus_keeps_nine_witness :
  let e := mkEntry (JNumber 200) invalid 0 in
  let e' := mkEntry (JNumber 404) cat2xx 1 in
  History.addStatus e' [e] = [e; e']
  /\ History.addStatus e' (e' :: repeat e 9) = (repeat e 9 ++ [e'])%list.
Proof.
  intros e e'. split.
  - destruct (addStatus_keeps_nine e' [e]) as (_ & H & _).
    apply H. simpl. lia.
  - destruct (addStatus_keeps_nine e' (e' :: repeat e 9)) as (_ & _ & H).
    apply H. reflexivity.
Defined.

(** X2. The table is a map that the lookup can read back: no key is
    written twice, and every key, as written or with white space around
    it, resolves to its own code; that code lies between 100 and 505, so
    a phrase of the table lights green or red and never orange. *)
Theorem table_keys_resolve :
  NoDup (map fst statusCodeMap)
  /\ forall (k : string) (n : Z),
      In (k, n) statusCodeMap ->
      phraseLookup k = Some (JNumber n)
      /\ (forall l r : string,
            JsString.allWhite l = true -> JsString.allWhite r = true ->
            phraseLookup (l ++ k ++ r) = Some (JNumber n))
      /\ 100 <= n <= 505
      /\ (fst (classify (Some (JNumber n))) = green
          \/ fst (classify (Some (JNumber n))) = red).
Proof.
  split.
  - assert (E : nodup string_dec (map fst statusCodeMap) = map fst statusCodeMap)
      by (vm_compute; reflexivity).
    rewrite <- E. apply NoDup_nodup.
  - intros k n Hin.
    pose proof (proj1 (Forall_forall _ _) statusCodeMap_rows (k, n) Hin)
      as [Hk Hr]. simpl in Hk, Hr.
    split; [exact Hk|]. split; [|split; [exact Hr|]].
    + intros l r Hl Hrr. now rewrite phraseLookup_pad.
    + destruct (Z_lt_ge_dec n 400).
      * left. apply classify_green. lia.
      * right. apply classify_red. lia.
Qed.

Lemma table_keys_resolve_witness :
  phraseLookup "bad gateway" = Some (JNumber 502)
  /\ phraseLookup (" " ++ "bad gateway" ++ "  ") = Some (JNumber 502).
Proof.
  destruct table_keys_resolve as [_ H].
  destruct (H "bad gateway" 502) as (H1 & H2 & _).
  - unfold statusCodeMap. simpl. tauto.
  - split; [exact H1 | apply H2; reflexivity].
Defined.

(** X3. What the phrase strategy can return.  When it returns a value,
    either the normalized input is a key of the table and the value is
    its code, between 100 and 505, or the normalized input is one of the
    two lower-case names that an object literal inherits, [constructor]
    and [__proto__], and the value is that inherited object.  No other
    inherited name can be reached, because the input is lowered first. *)
Theorem phraseLookup_range (v : string) (x : JsValue) :
  phraseLookup v = Some x ->
  (exists n : Z,
      x = JNumber n
      /\ In (JsString.trim (JsString.toLowerCase v), n) statusCodeMap
      /\ 100 <= n <= 505)
  \/ (x = JObject (JsString.trim (JsString.toLowerCase v))
      /\ (JsString.trim (JsString.toLowerCase v) = "constructor"
          \/ JsString.trim (JsString.toLowerCase v) = "__proto__")).
Proof.
  unfold phraseLookup, getProperty, orNull.
  remember (JsString.trim (JsString.toLowerCase v)) as key eqn:Hkey.
  assert (Hlow : JsString.toLowerCase key = key).
  { rewrite Hkey, <- trim_toLowerCase.
    now rewrite JsStringFacts.toLowerCase_idem. }
  destruct (ownProperty key statusCodeMap) as [n|] eqn:E.
  - simpl. destruct (n =? 0)%Z; simpl; [discriminate|].
    intros H. injection H as <-. left. exists n.
    apply ownProperty_In in E.
    pose proof (proj1 (Forall_forall _ _) statusCodeMap_rows (key, n) E)
      as [_ Hr].
    auto.
  - destruct (existsb (String.eqb key) objectPrototypeKeys) eqn:Ex;
      [|discriminate].
    simpl. intros H. injection H as <-. right. split; [reflexivity|].
    apply existsb_exists in Ex as (k & Hin & Hk).
    apply String.eqb_eq in Hk. subst k. clear E Hkey.
    simpl in Hin.
    repeat (destruct Hin as [<-|Hin]; [auto; vm_compute in Hlow; discriminate|]).
    destruct Hin.
Qed.

Lemma phraseLookup_range_witness :
  (exists n : Z,
      JNumber 404 = JNumber n
      /\ In (JsString.trim (JsString.toLowerCase " Not Found"), n) statusCodeMap
      /\ 100 <= n <= 505)
  \/ (JNumber 404 = JObject (JsString.trim (JsString.toLowerCase " Not Found"))
      /\ (JsString.trim (JsString.toLowerCase " Not Found") = "constructor"
          \/ JsString.trim (JsString.toLowerCase " Not Found") = "__proto__")).
Proof. apply (phraseLookup_range " Not Found" (JNumber 404)). reflexivity. Defined.

Lemma parseDigits_upper (s : string) (acc : Z) :
  JsString.allDigits s = true -> 0 <= acc ->
  JsString.parseDigits acc s < (acc + 1) * 10 ^ Z.of_nat (String.length s).
Proof.
  revert acc. induction s as [|c s IH]; intros acc Hd Ha.
  - simpl. lia.
  - cbn [JsString.allDigits] in Hd. apply andb_prop in Hd as [Hc Hs].
    cbn [JsString.parseDigits String.length]. rewrite Hc.
    unfold JsString.isDigit in Hc. cbv zeta in Hc.
    apply andb_prop in Hc as [H1 H2].
    apply Z.leb_le in H1. apply Z.leb_le in H2.
    specialize (IH (10 * acc + (JsString.unit_of c - 48)) Hs ltac:(lia)).
    rewrite Nat2Z.inj_succ, Z.pow_succ_r by lia.
    set (p := 10 ^ Z.of_nat (String.length s)) in *.
    assert (0 < p) by (apply Z.pow_pos_nonneg; lia).
    nia.
Qed.

Lemma parseDigits_lower (s : string) (acc : Z) :
  JsString.allDigits s = true -> 0 <= acc ->
  acc * 10 ^ Z.of_nat (String.length s) <= JsString.parseDigits acc s.
Proof.
  revert acc. induction s as [|c s IH]; intros acc Hd Ha.
  - simpl. lia.
  - cbn [JsString.allDigits] in Hd. apply andb_prop in Hd as [Hc Hs].
    cbn [JsString.parseDigits String.length]. rewrite Hc.
    unfold JsString.isDigit in Hc. cbv zeta in Hc.
    apply andb_prop in Hc as [H1 H2].
    apply Z.leb_le in H1. apply Z.leb_le in H2.
    specialize (IH (10 * acc + (JsString.unit_of c - 48)) Hs ltac:(lia)).
    rewrite Nat2Z.inj_succ, Z.pow_succ_r by lia.
    set (p := 10 ^ Z.of_nat (String.length s)) in *.
    assert (0 < p) by (apply Z.pow_pos_nonneg; lia).
    nia.
Qed.

Lemma testDigits_allDigits (s : string) :
  JsString.testDigits s = true -> JsString.allDigits s = true.
Proof. destruct s; [discriminate | auto]. Qed.

Lemma classifyCode_out_of_range (n : Z) :
  n < 100 \/ 600 <= n -> classifyCode (JNumber n) = (orange, invalid).
Proof.
  intros H. unfold classifyCode, js_ge, js_lt.
  repeat match goal with
    | |- context [(?a <=? ?b)%Z] => destruct (Z.leb_spec a b)
    | |- context [(?a <? ?b)%Z] => destruct (Z.ltb_spec a b)
    end; simpl; try reflexivity; lia.
Qed.



(** X5. Which numerals can leave the orange light.  A numeral of one or
    two digits is below 100, and a numeral of four digits or more that
    does not start with 0 is at least 1000: both end on orange and
    [invalid], and both are still appended to the history. *)
Theorem numeral_length_decides_invalid (w : World) (s : State) (v : string) :
  JsString.testDigits v = true ->
  ((String.length v <= 2)%nat
   \/ ((4 <= String.length v)%nat /\ forall r : string, v <> String "0" r)) ->
  trafficLightStatus (check w v s) = orange
  /\ statusCategory (check w v s) = invalid
  /\ history (check w v s)
     = History.addStatus
         (mkEntry (JNumber (JsString.parseInt10 v)) (statusCategory s) (dateNow w))
         (history s).
Proof.
  intros Hd Hlen. rewrite (check_digits w s v Hd). cbv zeta.
  cbn [history trafficLightStatus statusCategory].
  assert (Hr : JsString.parseInt10 v < 100 \/ 600 <= JsString.parseInt10 v).
  { pose proof (testDigits_allDigits v Hd) as Ha.
    destruct Hlen as [Hl|[Hl Hz]].
    - left. pose proof (parseDigits_upper v 0 Ha ltac:(lia)) as Hu.
      unfold JsString.parseInt10.
      assert (10 ^ Z.of_nat (String.length v) <= 10 ^ 2)
        by (apply Z.pow_le_mono_r; lia).
      lia.
    - right. destruct v as [|c r]; [discriminate|].
      cbn [JsString.allDigits] in Ha. apply andb_prop in Ha as [Hc Hr].
      unfold JsString.parseInt10. cbn [JsString.parseDigits]. rewrite Hc.
      assert (H1 : 1 <= 10 * 0 + (JsString.unit_of c - 48)).
      { assert (Hne : c <> "0"%char) by (intros ->; apply (Hz r eq_refl)).
        clear - Hc Hne. destruct c as [[] [] [] [] [] [] [] []];
          vm_compute in Hc; try discriminate Hc;
          try (vm_compute; intros E; discriminate E);
          exfalso; apply Hne; reflexivity. }
      pose proof (parseDigits_lower r (10 * 0 + (JsString.unit_of c - 48)) Hr
                    ltac:(lia)) as Hlow.
      cbn [String.length] in Hl.
      assert (10 ^ 3 <= 10 ^ Z.of_nat (String.length r))
        by (apply Z.pow_le_mono_r; lia).
      nia. }
  rewrite (classifyCode_out_of_range _ Hr). repeat split.
Qed.

Lemma numeral_length_decides_invalid_witness :
  trafficLightStatus (check offlineWorld "42" initialState) = orange
  /\ statusCategory (check offlineWorld "9999" initialState) = invalid.
Proof.
  split.
  - destruct (numeral_length_decides_invalid offlineWorld initialState "42"
                eq_refl) as (H & _); [left; simpl; lia | exact H].
  - destruct (numeral_length_decides_invalid offlineWorld initialState "9999"
                eq_refl) as (_ & H & _);
      [right; split; [simpl; lia | intros r E; discriminate E] | exact H].
Defined.

(** X6. Zeros in front of a numeral change nothing: [parseInt] reads
    base 10, so "0" followed by digits resolves to the same code, and the
    check displays the same light and category. *)
Theorem leading_zero_ignored (w : World) (s : State) (v : string) :
  JsString.testDigits v = true ->
  resolve w ("0" ++ v) = resolve w v
  /\ trafficLightStatus (check w ("0" ++ v) s) = trafficLightStatus (check w v s)
  /\ statusCategory (check w ("0" ++ v) s) = statusCategory (check w v s)
  /\ history (check w ("0" ++ v) s) = history (check w v s).
Proof.
  intros Hd.
  assert (Hd0 : JsString.testDigits ("0" ++ v) = true).
  { simpl. now apply testDigits_allDigits. }
  assert (Hp : JsString.parseInt10 ("0" ++ v) = JsString.parseInt10 v)
    by reflexivity.
  rewrite (check_digits w s _ Hd0), (check_digits w s v Hd). cbv zeta.
  cbn [history trafficLightStatus statusCategory]. rewrite Hp.
  unfold resolve. rewrite Hd0, Hd, Hp. repeat split.
Qed.

Lemma leading_zero_ignored_witness :
  resolve offlineWorld "0404" = resolve offlineWorld "404"
  /\ statusCategory (check offlineWorld "0404" initialState) = cat4xx.
Proof.
  destruct (leading_zero_ignored offlineWorld initialState "404" eq_refl)
    as (Hr & _ & Hc & _).
  split; [exact Hr | exact (eq_trans Hc eq_refl)].
Defined.

(* ------------------------------------------------------------------ *)
(** ** Further properties: the display *)

Lemma classify_pairs (x : option JsValue) :
  match snd (classify x) with
  | cat1xx | cat2xx | cat3xx => fst (classify x) = green
  | cat4xx | cat5xx => fst (classify x) = red
  | invalid => fst (classify x) = orange
  end.
Proof.
  destruct x as [[n|k]|]; try reflexivity.
  unfold classify, classifyCode, js_ge, js_lt.
  repeat match goal with
    | |- context [(?a <=? ?b)%Z] => destruct (Z.leb_spec a b)
    | |- context [(?a <? ?b)%Z] => destruct (Z.ltb_spec a b)
    end; reflexivity.
Qed.

Lemma classify_not_off (x : option JsValue) : fst (classify x) <> off.
Proof.
  pose proof (classify_pairs x) as H.
  destruct (snd (classify x)); rewrite H; discriminate.
Qed.

Lemma classify_green_inv (x : option JsValue) :
  fst (classify x) = green -> exists n, x = Some (JNumber n) /\ 100 <= n < 400.
Proof.
  destruct x as [[n|k]|]; try discriminate.
  intros H0. exists n. split; [reflexivity|].
  revert H0. unfold classify, classifyCode, js_ge, js_lt.
  repeat match goal with
    | |- context [(?a <=? ?b)%Z] => destruct (Z.leb_spec a b)
    | |- context [(?a <? ?b)%Z] => destruct (Z.ltb_spec a b)
    end; simpl; intros Hg; try discriminate Hg; lia.
Qed.

Lemma check_light (w : World) (s : State) (v : string) :
  JsString.allWhite v = false ->
  trafficLightStatus (check w v s) = fst (classify (resolve w v)).
Proof. intros Hb. now rewrite <- (check_display w s v Hb). Qed.

Lemma check_category (w : World) (s : State) (v : string) :
  JsString.allWhite v = false ->
  statusCategory (check w v s) = snd (classify (resolve w v)).
Proof. intros Hb. now rewrite <- (check_display w s v Hb). Qed.

Lemma session_snoc (steps : list (World * string)) (w : World) (v : string) :
  session (steps ++ [(w, v)]) = check w v (session steps).
Proof. unfold session. now rewrite fold_left_app. Qed.

(** X7. The light is off after a check exactly when the input was blank;
    every other input, resolved or not, lights green, red or orange.  On
    the mobile layout the information button is therefore rendered after
    a check exactly when the input was not blank, and it is not rendered
    at mount. *)
Theorem light_off_iff_blank (w : World) (s : State) (v : string) :
  (trafficLightStatus (check w v s) = off <-> JsString.allWhite v = true)
  /\ (forall isMobile : bool,
        showInfoButton isMobile (check w v s)
        = isMobile && negb (JsString.allWhite v))
  /\ showInfoButton true initialState = false.
Proof.
  destruct (JsString.allWhite v) eqn:Hb.
  - rewrite (check_blank w s v Hb). unfold showInfoButton. simpl.
    repeat split; intros [|]; reflexivity.
  - pose proof (classify_not_off (resolve w v)) as Hoff.
    unfold showInfoButton. rewrite (check_light w s v Hb).
    split; [split; [intros H; contradiction | discriminate]|].
    split; [|reflexivity].
    intros [|]; simpl; [|reflexivity].
    destruct (fst (classify (resolve w v))); congruence.
Qed.

(** X8. In every state that a session can reach, the light and the
    category agree: 1xx, 2xx and 3xx go with green, 4xx and 5xx with red,
    and [invalid] with orange, or with the light off. *)
Theorem light_agrees_with_category (steps : list (World * string)) :
  match statusCategory (session steps) with
  | cat1xx | cat2xx | cat3xx => trafficLightStatus (session steps) = green
  | cat4xx | cat5xx => trafficLightStatus (session steps) = red
  | invalid =>
      trafficLightStatus (session steps) = orange
      \/ trafficLightStatus (session steps) = off
  end.
Proof.
  destruct steps as [|x steps] using rev_ind; [right; reflexivity|].
  destruct x as [w v]. rewrite session_snoc.
  destruct (JsString.allWhite v) eqn:Hb.
  - rewrite (check_blank w _ v Hb). right. reflexivity.
  - rewrite (check_light w _ v Hb), (check_category w _ v Hb).
    pose proof (classify_pairs (resolve w v)) as H.
    destruct (snd (classify (resolve w v))); auto.
Qed.

(* ------------------------------------------------------------------ *)
(** ** Further properties: the network and the flag *)

Section Network.
Local Opaque proxy.
Variable w : World.
Variable s : State.
Variable v : string.

Lemma check_requests :
  requests (check w v s) =
  (requests s ++
   if JsString.allWhite v || JsString.testDigits v then []
   else match parseURL w (JsString.trim v) with
        | Some href => [(proxy ++ href)%string]
        | None => []
        end)%list.
Proof.
  unfold_js. rewrite JsStringFacts.truthy_trim.
  destruct (JsString.allWhite v); simpl; [now rewrite app_nil_r|].
  destruct (JsString.testDigits v); simpl; [now rewrite app_nil_r|].
  destruct (parseURL w (JsString.trim v)) as [href|]; simpl;
    [destruct (fetchHead w (proxy ++ href)); simpl|];
    try destruct (phraseLookup v); simpl; rewrite ?app_nil_r; reflexivity.
Qed.

Lemma check_errors :
  errorsLogged (check w v s) =
  (errorsLogged s +
   if JsString.allWhite v || JsString.testDigits v then 0
   else if probeFails w v then 1 else 0)%nat.
Proof.
  unfold_js. unfold probeFails. rewrite JsStringFacts.truthy_trim.
  destruct (JsString.allWhite v); simpl; [lia|].
  destruct (JsString.testDigits v); simpl; [lia|].
  destruct (parseURL w (JsString.trim v)) as [href|]; simpl;
    [destruct (fetchHead w (proxy ++ href)); simpl|];
    try destruct (phraseLookup v); simpl; lia.
Qed.

Local Transparent proxy.
End Network.

(** X9. [urlRequest] on its own.  It answers [null] exactly when the URL
    does not parse or the request is rejected, and then logs one error;
    otherwise it answers the status and raises [isUrl].  It hands at most
    one request to [fetch], none when the URL does not parse, and it
    never touches the input, the light, the category, the confirmed
    input or the history; it never lowers [isUrl]. *)
Theorem urlRequest_effects (w : World) (s : State) (v : string) :
  let s' := snd (urlRequest w v s) in
  fst (urlRequest w v s)
    = Normal (if probeFails w v
              then None
              else match parseURL w (JsString.trim v) with
                   | Some href => fetchHead w (proxy ++ href)
                   | None => None
                   end)
  /\ isUrl s' = isUrl s || negb (probeFails w v)
  /\ errorsLogged s' = (errorsLogged s + if probeFails w v then 1 else 0)%nat
  /\ requests s'
     = (requests s ++ match parseURL w (JsString.trim v) with
                      | Some href => [(proxy ++ href)%string]
                      | None => []
                      end)%list
  /\ inputValue s' = inputValue s
  /\ trafficLightStatus s' = trafficLightStatus s
  /\ statusCategory s' = statusCategory s
  /\ confirmedInput s' = confirmedInput s
  /\ history s' = history s.
Proof.
  cbv zeta. rewrite urlRequest_run. unfold probeFails.
  destruct (parseURL w (JsString.trim v)) as [href|].
  - destruct (fetchHead w (proxy ++ href)); simpl;
      rewrite ?orb_true_r, ?orb_false_r, ?Nat.add_0_r, ?Nat.add_1_r;
      repeat split.
  - simpl. rewrite ?orb_false_r, ?Nat.add_1_r, ?app_nil_r. repeat split.
Qed.


(** X11. The flag [isUrl] is raised only by a probe that succeeded: when
    it is true at the end of a session, some check of that session had
    an input that is neither blank nor a numeral, whose URL parsed and
    whose request was answered.  The flag may be older than the last
    check, but it is never true in a session without such a check. *)
Theorem isUrl_needs_answered_probe (steps : list (World * string)) :
  isUrl (session steps) = true ->
  exists (w : World) (u : string),
    In (w, u) steps
    /\ JsString.allWhite u = false
    /\ JsString.testDigits u = false
    /\ probeFails w u = false.
Proof.
  induction steps as [|[w v] steps IH] using rev_ind; [discriminate|].
  rewrite session_snoc, check_isUrl. intros H.
  assert (Hold : isUrl (session steps) = true ->
                 exists w0 u, In (w0, u) (steps ++ [(w, v)])
                   /\ JsString.allWhite u = false
                   /\ JsString.testDigits u = false
                   /\ probeFails w0 u = false).
  { intros H0. destruct (IH H0) as (w0 & u & Hin & Hrest).
    exists w0, u. split; [apply in_or_app; now left | exact Hrest]. }
  destruct (JsString.allWhite v) eqn:Hb; [auto|].
  destruct (JsString.testDigits v) eqn:Hd; [discriminate|].
  destruct (probeFails w v) eqn:Hp; [auto|].
  exists w, v. split; [apply in_or_app; right; now left | auto].
Qed.

Lemma isUrl_needs_answered_probe_witness :
  exists (w : World) (u : string),
    In (w, u) [(onlineWorld, "https://example.com"); (offlineWorld, "ok")]
    /\ JsString.allWhite u = false
    /\ JsString.testDigits u = false
    /\ probeFails w u = false.
Proof.
  apply (isUrl_needs_answered_probe
           [(onlineWorld, "https://example.com"); (offlineWorld, "ok")]).
  reflexivity.
Defined.

(** X12. When the "Open URL in a new tab" button is rendered after a
    check, the input was neither blank nor a numeral and the light is
    green; and either the probe of this input was answered, with a status
    from 100 to 399, or the probe failed, the flag was already raised
    before the check, and the input is a phrase whose code lies from 100
    to 399. *)
Theorem open_url_button_rendered (w : World) (s : State) (v : string) :
  showOpenUrlButton (check w v s) = true ->
  JsString.allWhite v = false
  /\ JsString.testDigits v = false
  /\ trafficLightStatus (check w v s) = green
  /\ exists n : Z,
      100 <= n < 400
      /\ resolve w v = Some (JNumber n)
      /\ (probeFails w v = false
          \/ (probeFails w v = true /\ isUrl s = true
              /\ phraseLookup v = Some (JNumber n))).
Proof.
  unfold showOpenUrlButton. intros H.
  destruct (trafficLightStatus (check w v s)) eqn:Hl; try discriminate.
  destruct (JsString.allWhite v) eqn:Hb.
  { rewrite (check_blank w s v Hb) in Hl. discriminate. }
  rewrite check_isUrl, Hb in H.
  destruct (JsString.testDigits v) eqn:Hd; [discriminate|].
  rewrite (check_light w s v Hb) in Hl.
  destruct (classify_green_inv _ Hl) as (n & Hres & Hn).
  repeat split. exists n. repeat split; try lia; [exact Hres|].
  destruct (probeFails w v) eqn:Hp; [right | now left].
  repeat split; [exact H|].
  now rewrite <- (resolve_probe_failed w v Hd Hp).
Qed.

Lemma open_url_button_rendered_witness :
  JsString.testDigits "https://example.com" = false
  /\ trafficLightStatus (check onlineWorld "https://example.com" initialState)
     = green.
Proof.
  destruct (open_url_button_rendered onlineWorld initialState
              "https://example.com" eq_refl) as (_ & Hd & Hl & _).
  split; [exact Hd | exact Hl].
Defined.

(** X13. A probe that is answered decides the check.  The code is the
    status of the response, whatever it is and whatever the table says of
    the input; exactly one request is made, to the proxy followed by the
    [href]; no error is logged; the flag is raised; one entry is
    appended; and the button is rendered exactly for a status from 100
    to 399. *)
Theorem answered_probe_decides (w : World) (s : State) (v href : string) (n : Z) :
  JsString.allWhite v = false ->
  JsString.testDigits v = false ->
  parseURL w (JsString.trim v) = Some href ->
  fetchHead w (proxy ++ href) = Some n ->
  check w v s
  = mkState v (fst (classifyCode (JNumber n))) (snd (classifyCode (JNumber n)))
      true v
      (History.addStatus (mkEntry (JNumber n) (statusCategory s) (dateNow w))
         (history s))
      (requests s ++ [(proxy ++ href)%string])%list (errorsLogged s)
  /\ showOpenUrlButton (check w v s) = ((100 <=? n)%Z && (n <? 400)%Z).
Proof.
  intros Hb Hd Hp Hf.
  assert (E : check w v s
    = mkState v (fst (classifyCode (JNumber n))) (snd (classifyCode (JNumber n)))
        true v
        (History.addStatus (mkEntry (JNumber n) (statusCategory s) (dateNow w))
           (history s))
        (requests s ++ [(proxy ++ href)%string])%list (errorsLogged s)).
  { unfold_js. rewrite JsStringFacts.truthy_trim, Hb. cbn [negb].
    rewrite Hd, Hp. cbv beta iota. rewrite Hf. reflexivity. }
  split; [exact E|]. rewrite E. unfold showOpenUrlButton.
  cbn [trafficLightStatus isUrl]. unfold classifyCode, js_ge, js_lt.
  repeat match goal with
    | |- context [(?a <=? ?b)%Z] => destruct (Z.leb_spec a b)
    | |- context [(?a <? ?b)%Z] => destruct (Z.ltb_spec a b)
    end; simpl; try reflexivity; lia.
Qed.

Lemma answered_probe_decides_witness :
  showOpenUrlButton (check onlineWorld " https://example.com" initialState)
  = ((100 <=? 200)%Z && (200 <? 400)%Z).
Proof.
  destruct (answered_probe_decides onlineWorld initialState
              " https://example.com" "https://example.com/" 200
              eq_refl eq_refl eq_refl eq_refl) as [_ H].
  exact H.
Defined.

(** X14. The button opens what is in the input box when it is pressed.
    Right after an answered check of [u] that is the trimmed [u], the
    string that was parsed as a URL.  Typing [t] afterwards changes
    neither the light, the flag, the confirmed input nor the history, so
    the button stays rendered, and its target becomes the trimmed [t],
    which was never checked. *)
Theorem button_opens_current_input
  (w : World) (s : State) (u t href : string) (n : Z) :
  JsString.allWhite u = false ->
  JsString.testDigits u = false ->
  parseURL w (JsString.trim u) = Some href ->
  fetchHead w (proxy ++ href) = Some n ->
  100 <= n < 400 ->
  let s1 := check w u s in
  let s2 := handleInputChange t s1 in
  showOpenUrlButton s1 = true
  /\ openUrlTarget s1 = JsString.trim u
  /\ showOpenUrlButton s2 = true
  /\ openUrlTarget s2 = JsString.trim t
  /\ confirmedInput s2 = u
  /\ history s2 = history s1
  /\ statusCategory s2 = statusCategory s1.
Proof.
  intros Hb Hd Hp Hf Hn s1 s2.
  assert (Hgreen : fst (classifyCode (JNumber n)) = green)
    by (apply (classify_green n); lia).
  assert (E : s1 = mkState u (fst (classifyCode (JNumber n)))
        (snd (classifyCode (JNumber n))) true u
        (History.addStatus (mkEntry (JNumber n) (statusCategory s) (dateNow w))
           (history s))
        (requests s ++ [(proxy ++ href)%string])%list (errorsLogged s)).
  { unfold s1. unfold_js. rewrite JsStringFacts.truthy_trim, Hb. cbn [negb].
    rewrite Hd, Hp. cbv beta iota. rewrite Hf. reflexivity. }
  unfold s2. rewrite E.
  unfold showOpenUrlButton, openUrlTarget, handleInputChange, setInputValue.
  cbn [snd inputValue trafficLightStatus statusCategory isUrl confirmedInput
       history]. rewrite Hgreen. repeat split.
Qed.

Lemma button_opens_current_input_witness :
  let s1 := check onlineWorld "https://example.com" initialState in
  showOpenUrlButton (handleInputChange "not a url" s1) = true
  /\ openUrlTarget (handleInputChange "not a url" s1) = "not a url".
Proof.
  intros s1.
  destruct (button_opens_current_input onlineWorld initialState
              "https://example.com" "not a url" "https://example.com/" 200
              eq_refl eq_refl eq_refl eq_refl ltac:(lia))
    as (_ & _ & H1 & H2 & _).
  split; [exact H1 | exact H2].
Defined.

(* ------------------------------------------------------------------ *)
(** ** Further properties: the history of a session *)

Lemma check_history_appends (w : World) (s : State) (v : string) :
  history (check w v s) =
  if appends (w, v)
  then match resolve w v with
       | Some c =>
           History.addStatus (mkEntry c (statusCategory s) (dateNow w)) (history s)
       | None => history s
       end
  else history s.
Proof.
  unfold appends. cbn [fst snd].
  destruct (JsString.allWhite v) eqn:Hb.
  - now rewrite (check_blank w s v Hb).
  - rewrite (check_history w s v Hb). now destruct (resolve w v).
Qed.

(** X15. The category stored in an entry is the one left by the check
    before.  When a check that resolves to a value follows any other
    check, the entry it appends carries its own code and time, with the
    category that the earlier check displayed: [invalid] after a blank
    input, and otherwise the class of what the earlier input resolved
    to. *)
Theorem entry_category_from_previous_check
  (w1 w2 : World) (s : State) (v1 v2 : string) (c2 : JsValue) :
  JsString.allWhite v2 = false ->
  resolve w2 v2 = Some c2 ->
  history (check w2 v2 (check w1 v1 s))
  = History.addStatus
      (mkEntry c2
         (if JsString.allWhite v1 then invalid
          else snd (classify (resolve w1 v1)))
         (dateNow w2))
      (history (check w1 v1 s)).
Proof.
  intros Hb2 Hr2. rewrite (check_history w2 _ v2 Hb2), Hr2.
  destruct (JsString.allWhite v1) eqn:Hb1.
  - now rewrite (check_blank w1 s v1 Hb1).
  - now rewrite (check_category w1 s v1 Hb1).
Qed.

Lemma entry_category_from_previous_check_witness :
  history (check offlineWorld "ok" (check offlineWorld "not found" initialState))
  = History.addStatus
      (mkEntry (JNumber 200) cat4xx (dateNow offlineWorld))
      (history (check offlineWorld "not found" initialState)).
Proof.
  exact (entry_category_from_previous_check offlineWorld offlineWorld
           initialState "not found" "ok" (JNumber 200) eq_refl eq_refl).
Defined.

(** X16. The length of the history of a session is the number of its
    checks that reached [addStatus], capped at 10: blank inputs and
    inputs that no strategy resolves add nothing, every other check adds
    one entry until the cap. *)
Theorem session_history_length (steps : list (World * string)) :
  List.length (history (session steps))
  = Nat.min 10 (List.length (filter appends steps)).
Proof.
  induction steps as [|[w v] steps IH] using rev_ind; [reflexivity|].
  rewrite session_snoc, check_history_appends, filter_app, length_app.
  cbn [filter]. destruct (appends (w, v)) eqn:Ha.
  - unfold appends in Ha. cbn [fst snd] in Ha.
    destruct (resolve w v) as [c|];
      [|rewrite andb_false_r in Ha; discriminate].
    rewrite HistoryFacts.addStatus_lastn, HistoryFacts.lastn_length,
      length_app, IH.
    simpl List.length. lia.
  - simpl List.length. rewrite IH. lia.
Qed.

(* ------------------------------------------------------------------ *)
(** ** Further properties: the chart *)

Module ChartFacts.
Import Chart.

Lemma mapFrom_nth {A B} (f : A -> nat -> B) (l : list A) (i k : nat) :
  nth_error (mapFrom i f l) k
  = option_map (fun x => f x (i + k)%nat) (nth_error l k).
Proof.
  revert i k. induction l as [|x l IH]; intros i [|k]; simpl; try reflexivity.
  - now rewrite Nat.add_0_r.
  - rewrite IH. now rewrite Nat.add_succ_r.
Qed.

Lemma mapFrom_seq {A B} (g : nat -> B) (l : list A) (i : nat) :
  mapFrom i (fun _ j => g j) l = map g (seq i (List.length l)).
Proof.
  revert i. induction l as [|x l IH]; intros i; simpl; [reflexivity|].
  now rewrite IH.
Qed.

Lemma to_uint_not_nil (n : nat) : Nat.to_uint n <> Decimal.Nil.
Proof.
  intros E. assert (n = 0%nat).
  { rewrite <- (DecimalNat.Unsigned.of_to n), E. reflexivity. }
  subst n. discriminate E.
Qed.

Lemma decimal_inj (n m : nat) : decimal n = decimal m -> n = m.
Proof.
  unfold decimal. intros E.
  apply DecimalNat.Unsigned.to_uint_inj.
  pose proof (NilZero.usu _ (to_uint_not_nil n)) as Hn.
  pose proof (NilZero.usu _ (to_uint_not_nil m)) as Hm.
  rewrite E in Hn. congruence.
Qed.

Lemma NoDup_map_inj {A B} (f : A -> B) (l : list A) :
  (forall x y, f x = f y -> x = y) -> NoDup l -> NoDup (map f l).
Proof.
  intros Hf. induction 1 as [|x l Hx Hl IH]; simpl; constructor; [|exact IH].
  intros Hin. apply in_map_iff in Hin as (y & Hy & Hin).
  apply Hf in Hy. now subst y.
Qed.

End ChartFacts.

(** X17. The chart has one bar per entry of the history it is given: the
    labels, the data and the colours have the length of the history; the
    bar at position [i], counted from 0, is labelled "#" followed by
    [i + 1], shows the code of the entry at [i] and has the colour of the
    category stored in that entry; and no two bars share a label.  With
    the history kept by the hook there are at most 10 bars. *)
Theorem chart_one_bar_per_entry (h : list StatusEntry) :
  let c := Chart.StatusHistoryChart h in
  List.length (Chart.labels c) = List.length h
  /\ List.length (Chart.data c) = List.length h
  /\ List.length (Chart.backgroundColor c) = List.length h
  /\ NoDup (Chart.labels c)
  /\ (forall (i : nat) (e : StatusEntry),
        nth_error h i = Some e ->
        nth_error (Chart.labels c) i = Some ("#" ++ Chart.decimal (i + 1))
        /\ nth_error (Chart.data c) i = Some (code e)
        /\ nth_error (Chart.backgroundColor c) i
           = Some (Chart.categoryColors (category e)))
  /\ (forall entries : list StatusEntry,
        h = History.run entries -> (List.length (Chart.labels c) <= 10)%nat).
Proof.
  cbv zeta. unfold Chart.StatusHistoryChart, Chart.mapIndexed.
  cbn [Chart.labels Chart.data Chart.backgroundColor].
  rewrite (ChartFacts.mapFrom_seq (fun j => "#" ++ Chart.decimal (j + 1))).
  rewrite !length_map, length_seq.
  split; [reflexivity|]. split; [reflexivity|]. split; [reflexivity|].
  split; [|split].
  - apply ChartFacts.NoDup_map_inj; [|apply seq_NoDup].
    intros x y E. injection E as E. apply ChartFacts.decimal_inj in E. lia.
  - intros i e Hi.
    rewrite <- (ChartFacts.mapFrom_seq (fun j => "#" ++ Chart.decimal (j + 1)) h).
    rewrite ChartFacts.mapFrom_nth, !nth_error_map, Hi. simpl. auto.
  - intros entries ->. rewrite HistoryFacts.run_lastn, HistoryFacts.lastn_length.
    lia.
Qed.

Lemma chart_one_bar_per_entry_witness :
  let h := history (check offlineWorld "404" (check offlineWorld "200" initialState)) in
  nth_error (Chart.labels (Chart.StatusHistoryChart h)) 1 = Some "#2"
  /\ nth_error (Chart.data (Chart.StatusHistoryChart h)) 1 = Some (JNumber 404)
  /\ nth_error (Chart.backgroundColor (Chart.StatusHistoryChart h)) 1
     = Some "#2ECC40".
Proof.
  intros h.
  destruct (chart_one_bar_per_entry h) as (_ & _ & _ & _ & H & _).
  exact (H 1%nat (mkEntry (JNumber 404) cat2xx (dateNow offlineWorld)) eq_refl).
Defined.

(** X18. The colours tell the categories apart: two categories with the
    same colour are the same category. *)
Theorem categoryColors_injective (c c' : StatusCodeCategory) :
  Chart.categoryColors c = Chart.categoryColors c' -> c = c'.
Proof. destruct c, c'; simpl; intros E; (reflexivity || discriminate E). Qed.

Lemma categoryColors_injective_witness : cat4xx = cat4xx.
Proof. exact (categoryColors_injective cat4xx cat4xx eq_refl). Defined.

(* ------------------------------------------------------------------ *)
(** ** Further properties: sessions and white space *)

Lemma check_confirmedInput (w : World) (s : State) (v : string) :
  confirmedInput (check w v s)
  = if JsString.allWhite v then confirmedInput s else v.
Proof.
  unfold_js. rewrite JsStringFacts.truthy_trim.
  destruct (JsString.allWhite v); simpl; [reflexivity|].
  destruct (JsString.testDigits v); simpl; [reflexivity|].
  destruct (parseURL w (JsString.trim v)) as [href|]; simpl;
    [destruct (fetchHead w _); simpl|];
    try destruct (phraseLookup v); reflexivity.
Qed.

Lemma allDigits_app (a b : string) :
  JsString.allDigits (a ++ b) = JsString.allDigits a && JsString.allDigits b.
Proof.
  induction a as [|c a IH]; simpl; [reflexivity|].
  now rewrite IH, andb_assoc.
Qed.

Lemma white_digits_empty (a : string) :
  JsString.allWhite a = true -> JsString.allDigits a = true -> a = "".
Proof.
  destruct a as [|c a]; [reflexivity|]. simpl. intros Hw Hd.
  apply andb_prop in Hw as [Hw _]. apply andb_prop in Hd as [Hd _].
  rewrite (JsStringFacts.isDigit_not_white c Hd) in Hw. discriminate.
Qed.

Lemma trimEnd_digits (a : string) :
  JsString.allDigits a = true -> JsString.trimEnd a = a.
Proof.
  induction a as [|c a IH]; simpl; [reflexivity|].
  intros H. apply andb_prop in H as [Hc Ha]. rewrite (IH Ha).
  destruct a; [|reflexivity].
  now rewrite (JsStringFacts.isDigit_not_white c Hc).
Qed.

Lemma trim_digits (a : string) :
  JsString.allDigits a = true -> JsString.trim a = a.
Proof.
  intros H. unfold JsString.trim.
  destruct a as [|c a]; [reflexivity|].
  pose proof H as H'. simpl in H'. apply andb_prop in H' as [Hc _].
  cbn [JsString.trimStart]. rewrite (JsStringFacts.isDigit_not_white c Hc).
  now apply trimEnd_digits.
Qed.

Lemma testDigits_trim_false (v : string) :
  JsString.testDigits (JsString.trim v) = false -> JsString.testDigits v = false.
Proof.
  intros H. destruct (JsString.testDigits v) eqn:E; [|reflexivity].
  rewrite (trim_digits v (testDigits_allDigits v E)) in H. congruence.
Qed.

Lemma testDigits_pad_false (l v r : string) :
  JsString.allWhite l = true -> JsString.allWhite r = true ->
  JsString.testDigits v = false -> JsString.testDigits (l ++ v ++ r) = false.
Proof.
  intros Hl Hr Hv.
  destruct (JsString.testDigits (l ++ v ++ r)) eqn:E; [|reflexivity].
  apply testDigits_allDigits in E as E'.
  rewrite !allDigits_app in E'.
  apply andb_prop in E' as [Dl E']. apply andb_prop in E' as [Dv Dr].
  rewrite (white_digits_empty l Hl Dl), (white_digits_empty r Hr Dr) in E.
  simpl in E. assert (Hv' : (v ++ "")%string = v).
  { clear. induction v as [|c v IH]; simpl; [reflexivity | now rewrite IH]. }
  rewrite Hv' in E. congruence.
Qed.

(** X19. The confirmed input, which the information panel shows, is the
    last input of the session that was not blank, exactly as it was
    typed; blank checks leave it alone, and it is empty until the first
    check of an input that is not blank. *)
Theorem confirmed_input_is_last_nonblank (steps : list (World * string)) :
  confirmedInput (session steps)
  = last (filter (fun v => negb (JsString.allWhite v)) (map snd steps)) "".
Proof.
  induction steps as [|[w v] steps IH] using rev_ind; [reflexivity|].
  rewrite session_snoc, check_confirmedInput, map_app, filter_app.
  cbn [map snd filter]. destruct (JsString.allWhite v); cbn [negb].
  - now rewrite app_nil_r.
  - now rewrite last_last.
Qed.

(** X20. The error log counts the failed probes: over a session, the
    number of calls to [console.error] is the number of checks whose
    input is neither blank nor a numeral and whose probe failed.  Every
    phrase, found in the table or not, is such an input when it does not
    parse as a URL. *)
Theorem errors_count_failed_probes (steps : list (World * string)) :
  errorsLogged (session steps)
  = List.length
      (filter (fun step =>
                 negb (JsString.allWhite (snd step) || JsString.testDigits (snd step))
                 && probeFails (fst step) (snd step))
         steps).
Proof.
  induction steps as [|[w v] steps IH] using rev_ind; [reflexivity|].
  rewrite session_snoc, check_errors, filter_app, length_app, IH.
  cbn [filter fst snd].
  destruct (JsString.allWhite v || JsString.testDigits v); cbn [negb andb];
    [reflexivity|].
  destruct (probeFails w v); reflexivity.
Qed.

(** X21. White space around an input that is not a numeral is ignored by
    the whole check: when the trimmed input is not made of digits only,
    the input padded with white space resolves to the same value, and
    the check displays the same light and category, leaves the same flag
    and the same history, and makes the same requests. *)
Theorem padding_ignored_unless_numeral
  (w : World) (s : State) (l v r : string) :
  JsString.allWhite l = true ->
  JsString.allWhite r = true ->
  JsString.allWhite v = false ->
  JsString.testDigits (JsString.trim v) = false ->
  resolve w (l ++ v ++ r) = resolve w v
  /\ trafficLightStatus (check w (l ++ v ++ r) s) = trafficLightStatus (check w v s)
  /\ statusCategory (check w (l ++ v ++ r) s) = statusCategory (check w v s)
  /\ isUrl (check w (l ++ v ++ r) s) = isUrl (check w v s)
  /\ requests (check w (l ++ v ++ r) s) = requests (check w v s)
  /\ history (check w (l ++ v ++ r) s) = history (check w v s).
Proof.
  intros Hl Hr Hb Hd.
  pose proof (testDigits_trim_false v Hd) as Hdv.
  pose proof (testDigits_pad_false l v r Hl Hr Hdv) as Hdp.
  pose proof (JsStringFacts.trim_pad l v r Hl Hr) as Ht.
  assert (Hbp : JsString.allWhite (l ++ v ++ r) = false).
  { destruct (JsString.allWhite (l ++ v ++ r)) eqn:E; [|reflexivity].
    apply JsStringFacts.trim_blank in E. rewrite Ht in E.
    apply JsStringFacts.trim_blank in E. congruence. }
  assert (Hres : resolve w (l ++ v ++ r) = resolve w v).
  { unfold resolve. now rewrite Hdp, Hdv, Ht, (phraseLookup_pad l v r Hl Hr). }
  assert (Hpf : probeFails w (l ++ v ++ r) = probeFails w v).
  { unfold probeFails. now rewrite Ht. }
  split; [exact Hres|].
  rewrite !check_light, !check_category, !check_isUrl, !check_requests,
    !check_history by assumption.
  rewrite Hres, Hbp, Hb, Hdp, Hdv, Hpf, Ht. simpl.
  repeat split.
Qed.

Lemma padding_ignored_unless_numeral_witness :
  resolve onlineWorld ("  " ++ "https://example.com" ++ " ")
  = resolve onlineWorld "https://example.com"
  /\ isUrl (check onlineWorld ("  " ++ "https://example.com" ++ " ") initialState)
     = isUrl (check onlineWorld "https://example.com" initialState).
Proof.
  destruct (padding_ignored_unless_numeral onlineWorld initialState
              "  " "https://example.com" " " eq_refl eq_refl eq_refl eq_refl)
    as (H1 & _ & _ & H2 & _).
  split; [exact H1 | exact H2].
Defined.
